(** * vulcan-cors: the CORS middleware of Skookum/vulcan-cors

    A shallow embedding of the two request handlers of the package
    ([CorsHandler] of cors.go and [Handler] of handler.go) and of the
    middleware constructor, with the properties of the specification
    stated and settled on them. *)

From stdpp Require Import gmap strings list fin_maps.
From Stdlib Require Import String Ascii ZArith.

Open Scope string_scope.

(** ** Go values *)

Module Go.

(** A Go slice is either [nil] or a (possibly empty) sequence: the two are
    told apart by [!= nil], which cors.go relies on. *)
Inductive slice (A : Type) : Type :=
| Nil
| Slice (elems : list A).
Arguments Nil {A}.
Arguments Slice {A} elems.

(** The elements visited by [for _, a := range s]. *)
Definition elems {A} (s : slice A) : list A :=
  match s with Nil => [] | Slice l => l end.

(** [s != nil] *)
Definition notNil {A} (s : slice A) : bool :=
  match s with Nil => false | Slice _ => true end.

(** A [map[string][]string].  The nil map and the empty map behave alike
    under [len], [range] and indexing, the only operations used. *)
Abbreviation smap := (gmap string (slice string)).

(** [m[k]]: the zero value, a nil slice, when [k] is not a key. *)
Definition index (m : smap) (k : string) : slice string :=
  default Nil (m !! k).

(** [len(m)] *)
Definition len (m : smap) : nat := size m.

(** [strings.Split(s, sep)] for a one-byte separator: every separator
    closes a field, so the empty string gives one empty field. *)
Fixpoint Split (s : string) (sep : ascii) : list string :=
  match s with
  | EmptyString => [""]
  | String c s' =>
      if Ascii.eqb c sep then "" :: Split s' sep
      else match Split s' sep with
           | x :: xs => String c x :: xs
           | [] => [String c ""]
           end
  end.

(** [strings.Join(elems, sep)] *)
Definition Join (l : list string) (sep : string) : string :=
  String.concat sep l.

End Go.

(** ** net/http: headers, requests and the effects on a response *)

Module http.

(** [http.Header], a [map[string][]string].  Every key used by the package
    is already in canonical MIME form, so key canonicalisation is the
    identity on them. *)
Abbreviation Header := (gmap string (list string)).

(** [h.Get(key)]: the first value, or the empty string. *)
Definition Get (h : Header) (key : string) : string :=
  match h !! key with
  | Some (v :: _) => v
  | _ => ""
  end.

(** [h.Set(key, value)] replaces the values of [key]. *)
Definition Set_ (h : Header) (key value : string) : Header :=
  <[key := [value]]> h.

(** [h.Add(key, value)] appends to the values of [key]. *)
Definition Add (h : Header) (key value : string) : Header :=
  <[key := (default [] (h !! key) ++ [value])%list]> h.

Record Request := {
  Method : string;
  ReqHeader : Header;   (* r.Header *)
}.

Definition StatusOK : Z := 200.
Definition StatusForbidden : Z := 403.

(** What a handler does to the outside, in order. [NextServeHTTP] is the
    call of the next handler of the chain, an opaque collaborator: the call
    is recorded, what the next handler writes is not modelled. *)
Inductive Effect :=
| HeaderSet (key value : string)
| HeaderAdd (key value : string)
| WriteHeader (statusCode : Z)
| LogPrintln (args : list string)
| NextServeHTTP.

#[global] Instance Effect_eq_dec : EqDecision Effect.
Proof. solve_decision. Defined.

(** The response under construction: its header map [w.Header()] and the
    effects performed so far. *)
Record Response := {
  Hdr : Header;
  trace : list Effect;
}.

(** A statement of a handler body. *)
Definition Proc := Response -> Response.

Definition seq (p q : Proc) : Proc := fun w => q (p w).

Definition w_Header_Set (key value : string) : Proc := fun w =>
  {| Hdr := Set_ (Hdr w) key value; trace := (trace w ++ [HeaderSet key value])%list |}.

Definition w_Header_Add (key value : string) : Proc := fun w =>
  {| Hdr := Add (Hdr w) key value; trace := (trace w ++ [HeaderAdd key value])%list |}.

Definition w_WriteHeader (statusCode : Z) : Proc := fun w =>
  {| Hdr := Hdr w; trace := (trace w ++ [WriteHeader statusCode])%list |}.

Definition log_Println (args : list string) : Proc := fun w =>
  {| Hdr := Hdr w; trace := (trace w ++ [LogPrintln args])%list |}.

Definition next_ServeHTTP (r : Request) : Proc := fun w =>
  {| Hdr := Hdr w; trace := (trace w ++ [NextServeHTTP])%list |}.

(** The status the handler sent: the first [WriteHeader] counts. *)
Fixpoint status (t : list Effect) : option Z :=
  match t with
  | [] => None
  | WriteHeader c :: _ => Some c
  | _ :: t' => status t'
  end.

(** How many times the next handler was called. *)
Definition forwards (t : list Effect) : nat :=
  List.length (filter (fun e => e = NextServeHTTP) t).

(** A response nothing has been written to yet, with headers [h]. *)
Definition fresh (h : Header) : Response := {| Hdr := h; trace := [] |}.

End http.

Import Go http.

Declare Scope proc_scope.
Delimit Scope proc_scope with proc.
Bind Scope proc_scope with Proc.
Notation "p ;; q" := (seq p q)
  (at level 100, q at level 200, right associativity) : proc_scope.
Open Scope proc_scope.

(** ** cors.go: the handler that checks origin and method *)

Module cors.

(** Modelled from the spec: the header-name constants [Origin],
    [AccessControlAllowOrigin], [AccessControlAllowMethods] and
    [AccessControlRequestMethod], which cors.go uses and another file of
    the package declares. *)
Definition Origin := "Origin".
Definition AccessControlAllowOrigin := "Access-Control-Allow-Origin".
Definition AccessControlAllowMethods := "Access-Control-Allow-Methods".
Definition AccessControlRequestMethod := "Access-Control-Request-Method".

Record CorsMiddleware := {
  AllowedOrigins : smap;
}.

(** The [next] field, an [http.Handler], is the opaque next stage. *)
Record CorsHandler := {
  cfg : CorsMiddleware;
}.

Definition requestDenied (r : Request) (message : string) : Proc :=
  log_Println [message] ;;
  w_WriteHeader StatusForbidden.

Definition getHostAndMethods (allowedOrigins : smap) (origin : string)
  : bool * slice string :=
  if notNil (index allowedOrigins origin) then
    (true, index allowedOrigins origin)
  else if notNil (index allowedOrigins "*") then
    (true, index allowedOrigins "*")
  else (false, Slice []).

Fixpoint checkMethod_range (method : string) (l : list string) : bool :=
  match l with
  | [] => false
  | a :: l' =>
      if String.eqb a method || String.eqb a "*" then true
      else checkMethod_range method l'
  end.

Definition checkMethod (method : string) (methods : slice string) : bool :=
  checkMethod_range method (elems methods).

Definition ServeHTTP (a : CorsHandler) (r : Request) : Proc :=
  let origin := Get (ReqHeader r) Origin in
  let '(hostIncluded, methods) :=
    getHostAndMethods (AllowedOrigins (cfg a)) origin in
  if negb hostIncluded then
    w_Header_Set AccessControlAllowOrigin "null" ;;
    requestDenied r "Request Blocked by CORS: Bad Host"
  else
    w_Header_Set AccessControlAllowOrigin origin ;;
    if String.eqb (Method r) "OPTIONS" then
      (* Preflight *)
      w_Header_Set AccessControlAllowOrigin origin ;;
      w_Header_Set AccessControlAllowMethods (Join (elems methods) ",") ;;
      let methodOK :=
        let method := Get (ReqHeader r) AccessControlRequestMethod in
        if negb (String.eqb method "") then checkMethod method methods
        else true in
      if negb methodOK then
        requestDenied r "Request Blocked by CORS: Bad Method"
      else
        w_WriteHeader StatusOK
    else if negb (checkMethod (Method r) methods) then
      requestDenied r "Request Blocked by CORS: Bad Method"
    else
      (* Pass the request to the next middleware in chain *)
      next_ServeHTTP r.

(** The order in which [range] visits the keys is unspecified; [keys] is
    the order of one run. *)
Fixpoint validateOrigins_range (keys : list string) : bool * option string :=
  match keys with
  | [] => (true, None)
  | origin :: keys' =>
      if String.eqb origin "" then
        (false, Some "must supply at least one origin or '*'")
      else validateOrigins_range keys'
  end.

Definition validateOrigins_in (keys : list string) (origins : smap)
  : bool * option string :=
  if Nat.eqb (len origins) 0 then
    (false, Some "must supply at least one origin or '*'")
  else validateOrigins_range keys.

Definition validateOrigins (origins : smap) : bool * option string :=
  validateOrigins_in (map_to_list origins).*1 origins.

(** [New] returns the middleware or the error. *)
Definition New (allowedOrigins : smap) : string + CorsMiddleware :=
  let '(_, err) := validateOrigins allowedOrigins in
  match err with
  | Some e => inl e
  | None => inr {| AllowedOrigins := allowedOrigins |}
  end.

(** [NewHandler] copies the configuration into a new handler and never
    fails; [next] is the opaque next stage. *)
Definition NewHandler (c : CorsMiddleware) : string + CorsHandler :=
  inr {| cfg := c |}.

(** [FromOther] builds the middleware again from a deserialized one. *)
Definition FromOther (c : CorsMiddleware) : string + CorsMiddleware :=
  New (AllowedOrigins c).

Section FromCli.

(** [ioutil.ReadFile]: the bytes it returns and whether an error came with
    them. *)
Variable ReadFile : string -> string * bool.

(** [yaml.Unmarshal] into the nil map: the map it leaves behind; the error
    it returns is dropped by the caller. *)
Variable Unmarshal : string -> smap.

(** [FromCli] on the value of the corsFile flag: the lines printed on the
    standard output and the middleware or the error. *)
Definition FromCli (corsFileName : string)
  : list string * (string + CorsMiddleware) :=
  if negb (String.eqb corsFileName "") then
    let '(yamlFile, err) := ReadFile corsFileName in
    let printed := if err then ["File error"] else [] in
    (printed, New (Unmarshal yamlFile))
  else ([], New ∅).

End FromCli.

End cors.

(** ** handler.go: the handler that also checks the requested headers *)

Module handler.

(** Modelled from the spec: the method and header-name constants that
    handler.go uses and another file of the package declares. *)
Definition optionsMethod := "OPTIONS".
Definition originHeader := "Origin".
Definition varyHeader := "Vary".
Definition requestMethodHeader := "Access-Control-Request-Method".
Definition requestHeadersHeader := "Access-Control-Request-Headers".
Definition allowOriginHeader := "Access-Control-Allow-Origin".
Definition allowMethodsHeader := "Access-Control-Allow-Methods".
Definition allowHeadersHeader := "Access-Control-Allow-Headers".

(** The texts that are logged are declared in another file of the package
    and the specification does not give them: they stay abstract. *)
Class ErrorTexts := {
  errorRoot : string;
  errorBadOrigin : string;
  errorBadMethod : string;
  errorBadHeader : string;
}.

(** The three queries of the [Middleware] type that the handler calls.  The
    type and its methods are in another file of the package; the handler is
    defined over any implementation of them. *)
Class Queries (Middleware : Type) := {
  isOriginAllowed : Middleware -> string -> bool;
  isMethodAllowed : Middleware -> string -> string -> bool;
  areHeadersAllowed : Middleware -> list string -> string -> bool;
}.

Section Handler.

Context {Middleware : Type} `{Queries Middleware} `{ErrorTexts}.

(** The [next] field, an [http.Handler], is the opaque next stage. *)
Record Handler := {
  cfg : Middleware;
}.

(** Sets the HTTP status to forbidden and logs error message *)
Definition requestDenied (h : Handler) (m : string) : Proc :=
  log_Println [errorRoot; ": "; m] ;;
  w_WriteHeader StatusForbidden.

(** Preconfigure headers on the response *)
Definition prepResponse (h : Handler) : Proc :=
  w_Header_Add varyHeader originHeader.

(** Writes the Access Control response headers *)
Definition buildResponse (h : Handler) (r : Request)
  (origin method : string) (headers : list string) : Proc :=
  w_Header_Set allowOriginHeader origin ;;
  w_Header_Set allowMethodsHeader method ;;
  w_Header_Set allowHeadersHeader (Join headers ",").

(** Shares common functionality for preflight and standard requests *)
Definition handleCommon (h : Handler) (r : Request) (method : string) : Proc :=
  let origin := Get (ReqHeader r) originHeader in
  if negb (isOriginAllowed (cfg h) origin) then
    requestDenied h errorBadOrigin
  else if negb (isMethodAllowed (cfg h) method origin) then
    requestDenied h errorBadMethod
  else
    let headers := Split (Get (ReqHeader r) requestHeadersHeader) "," in
    if negb (areHeadersAllowed (cfg h) headers origin) then
      requestDenied h errorBadHeader
    else
      buildResponse h r origin method headers.

(** Runs the CORS specification for OPTION requests *)
Definition handlePreflight (h : Handler) (r : Request) : Proc :=
  let method := Get (ReqHeader r) requestMethodHeader in
  let method := if String.eqb method "" then Method r else method in
  handleCommon h r method.

(** Runs the CORS specification for standard requests *)
Definition handleRequest (h : Handler) (r : Request) : Proc :=
  let method := Method r in
  handleCommon h r method.

(** Runs the CORS specification on the request before passing it to the
    next middleware chain *)
Definition ServeHTTP (h : Handler) (r : Request) : Proc :=
  prepResponse h ;;
  (if String.eqb (Method r) optionsMethod then handlePreflight h r
   else handleRequest h r) ;;
  next_ServeHTTP r.

End Handler.

Arguments Handler Middleware : clear implicits.

End handler.

(** ** The policy store behind handler.go *)

Module middleware.

(** Modelled from the spec: the [Middleware] type of handler.go, a mapping
    from origin to the allowed methods and the allowed header names, which is
    declared in a file of the package that is not at hand. *)
Record Rules := {
  Methods : list string;
  Headers : list string;
}.

Record Middleware := {
  AllowedOrigins : gmap string Rules;
}.

(** Modelled from the spec: the single lookup rule of the missing policy
    store, the exact origin first, the wildcard origin as the fallback. *)
Definition rulesFor (c : Middleware) (origin : string) : option Rules :=
  match AllowedOrigins c !! origin with
  | Some p => Some p
  | None => AllowedOrigins c !! "*"
  end.

(** Modelled from the spec: [isOriginAllowed] of the missing policy store,
    true iff the origin is an exact key or the wildcard key is present. *)
Definition isOriginAllowed (c : Middleware) (origin : string) : bool :=
  bool_decide (is_Some (AllowedOrigins c !! origin))
  || bool_decide (is_Some (AllowedOrigins c !! "*")).

(** Modelled from the spec: [allowedMethods] of the missing policy store. *)
Definition allowedMethods (c : Middleware) (origin : string) : list string :=
  match rulesFor c origin with Some p => Methods p | None => [] end.

(** Modelled from the spec: the allowed-header set of an origin in the
    missing policy store, fetched by the same lookup rule. *)
Definition allowedHeaders (c : Middleware) (origin : string) : list string :=
  match rulesFor c origin with Some p => Headers p | None => [] end.

Definition contains (l : list string) (x : string) : bool :=
  existsb (String.eqb x) l.

(** Modelled from the spec: [isMethodAllowed] of the missing policy store,
    true iff the method set holds the method literally or the wildcard. *)
Definition isMethodAllowed (c : Middleware) (method origin : string) : bool :=
  contains (allowedMethods c origin) method
  || contains (allowedMethods c origin) "*".

(** Modelled from the spec: [areHeadersAllowed] of the missing policy store,
    true iff every requested name is in the allowed-header set or that set
    holds the wildcard; the empty request list is allowed. *)
Definition areHeadersAllowed (c : Middleware) (headers : list string)
  (origin : string) : bool :=
  forallb (contains (allowedHeaders c origin)) headers
  || contains (allowedHeaders c origin) "*".

#[global] Instance queries : handler.Queries Middleware := {|
  handler.isOriginAllowed := isOriginAllowed;
  handler.isMethodAllowed := isMethodAllowed;
  handler.areHeadersAllowed := areHeadersAllowed;
|}.

End middleware.

(** ** Sample policies and requests *)

Definition mkRequest (method : string) (headers : list (string * string))
  : Request :=
  {| Method := method;
     ReqHeader := list_to_map ((fun kv => (kv.1, [kv.2])) <$> headers) |}.

Definition corsHandler (entries : list (string * slice string))
  : cors.CorsHandler :=
  {| cors.cfg := {| cors.AllowedOrigins := list_to_map entries |} |}.

Definition headerHandler (entries : list (string * (list string * list string)))
  : handler.Handler middleware.Middleware :=
  {| handler.cfg :=
      {| middleware.AllowedOrigins :=
          list_to_map ((fun e => (e.1, {| middleware.Methods := e.2.1;
                                          middleware.Headers := e.2.2 |}))
                       <$> entries) |} |}.

#[local] Instance sampleTexts : handler.ErrorTexts := {|
  handler.errorRoot := "CORS";
  handler.errorBadOrigin := "bad origin";
  handler.errorBadMethod := "bad method";
  handler.errorBadHeader := "bad header";
|}.

(** http://a.com may GET. *)
Definition policyA : cors.CorsHandler :=
  corsHandler [("http://a.com", Slice ["GET"])].

(** Any origin may GET. *)
Definition wildcardPolicy : cors.CorsHandler :=
  corsHandler [("*", Slice ["GET"])].

(** http://a.com may GET, with any header. *)
Definition policyH : handler.Handler middleware.Middleware :=
  headerHandler [("http://a.com", (["GET"], ["*"]))].

Definition plainGet : Request :=
  mkRequest "GET" [("Origin", "http://a.com")].

Definition deniedA : Request :=
  mkRequest "GET" [("Origin", "http://b.com")].

Definition anyOrigin : Request :=
  mkRequest "GET" [("Origin", "http://anything.com")].

Definition wildcardOrigin : Request :=
  mkRequest "GET" [("Origin", "*")].

Definition preflightA : Request :=
  mkRequest "OPTIONS" [("Origin", "http://a.com");
                       ("Access-Control-Request-Method", "GET")].

Definition preflightPost : Request :=
  mkRequest "OPTIONS" [("Origin", "http://a.com");
                       ("Access-Control-Request-Method", "POST")].

Definition barePreflight : Request :=
  mkRequest "OPTIONS" [("Origin", "http://a.com")].

(** ** What the specification asks of a response *)

(** The method a preflight request probes, as the specification words it:
    the value of the Access-Control-Request-Method header when the header is
    there and not empty, the method of the request itself otherwise. *)
Definition probedMethod (r : Request) : string :=
  match ReqHeader r !! "Access-Control-Request-Method" with
  | Some (v :: _) => if decide (v = "") then Method r else v
  | _ => Method r
  end.

(** A preflight request is answered directly: the next handler is not
    called, and the status is 403 or else 200, written last. *)
Definition answeredDirectly (t : list Effect) : Prop :=
  forwards t = 0
  /\ (status t = Some StatusForbidden
      \/ (status t = Some StatusOK /\ last t = Some (WriteHeader StatusOK))).

(** The response tells an origin denial apart: the allow-origin header is
    set to the string null before status 403 is written. *)
Definition signalsNullOrigin (t : list Effect) : Prop :=
  exists t1 t2 t3,
    t = (t1 ++ HeaderSet "Access-Control-Allow-Origin" "null"
            :: t2 ++ WriteHeader StatusForbidden :: t3)%list.

(** A header operation on [key]. *)
Definition writesHeader (key : string) (e : Effect) : Prop :=
  exists v, e = HeaderSet key v \/ e = HeaderAdd key v.

(** The allow-origin header echoes the origin of the request and is not the
    wildcard token. *)
Definition echoesOriginNotWildcard (r : Request) (w : Response) : Prop :=
  Hdr w !! "Access-Control-Allow-Origin" = Some [Get (ReqHeader r) "Origin"]
  /\ Hdr w !! "Access-Control-Allow-Origin" <> Some ["*"].

(** cors.go denies the preflight exactly when the method check refuses the
    probed method. *)
Definition checksProbedMethod (a : cors.CorsHandler) (r : Request) (h : Header)
  : Prop :=
  let ms := (cors.getHostAndMethods (cors.AllowedOrigins (cors.cfg a))
               (Get (ReqHeader r) "Origin")).2 in
  status (trace (cors.ServeHTTP a r (fresh h))) = Some StatusForbidden
  <-> cors.checkMethod (probedMethod r) ms = false.

(** The first thing done to the response is the addition of Vary: Origin. *)
Definition variesOnOriginFirst (t : list Effect) : Prop :=
  head t = Some (HeaderAdd "Vary" "Origin").

(** ** The policy as a user reads it *)

(** The method list that counts for an origin: the list of its own entry
    when that entry is not nil, else the list of the wildcard entry when
    that one is not nil, else none. *)
Definition effectiveMethods (P : smap) (o : string) : option (list string) :=
  match P !! o with
  | Some (Slice l) => Some l
  | _ => match P !! "*" with
         | Some (Slice l) => Some l
         | _ => None
         end
  end.

(** How many times a status was written. *)
Definition statusWrites (t : list Effect) : nat :=
  List.length
    (List.filter (fun e => match e with WriteHeader _ => true | _ => false end) t).

(** The method that handler.go checks: the probed method of a preflight, the
    method of any other request. *)
Definition checkedMethod (r : Request) : string :=
  if String.eqb (Method r) "OPTIONS" then probedMethod r else Method r.

(** The three checks of handler.go on a request, all passed. *)
Definition passesChecks {M : Type} `{Q : handler.Queries M}
  (hd : handler.Handler M) (r : Request) : bool :=
  let origin := Get (ReqHeader r) "Origin" in
  handler.isOriginAllowed (handler.cfg hd) origin
  && handler.isMethodAllowed (handler.cfg hd) (checkedMethod r) origin
  && handler.areHeadersAllowed (handler.cfg hd)
       (Split (Get (ReqHeader r) "Access-Control-Request-Headers") ",") origin.

(** One of the three response headers of the CORS protocol is written. *)
Definition writesAllowHeader (e : Effect) : Prop :=
  writesHeader "Access-Control-Allow-Origin" e
  \/ writesHeader "Access-Control-Allow-Methods" e
  \/ writesHeader "Access-Control-Allow-Headers" e.

(** http://a.com may GET, any other origin may do anything. *)
Definition mixedPolicy : smap :=
  <["http://a.com" := Slice ["GET"]]> {["*" := Slice ["*"]]}.


Definition preflightHeaders : Request :=
  mkRequest "OPTIONS" [("Origin", "http://a.com");
                       ("Access-Control-Request-Method", "GET");
                       ("Access-Control-Request-Headers", "X-A,X-B")].

(** A file system without that file, and a parser that finds no entry. *)
Definition noFile (name : string) : string * bool := ("", true).

Definition noEntries (yamlFile : string) : smap := ∅.

(** A file system with the one file cors.yml, and a parser that reads
    [mixedPolicy] from what is in it and nothing from no bytes. *)
Definition oneFile (name : string) : string * bool :=
  if String.eqb name "cors.yml" then ("{http://a.com: [GET], '*': ['*']}", false)
  else ("", true).

Definition parseSample (yamlFile : string) : smap :=
  if String.eqb yamlFile "" then ∅ else mixedPolicy.

(** ** Proof steps *)

(** Case analysis on the membership of an explicit list. *)
Ltac elem_cases H :=
  repeat (apply elem_of_cons in H as [H|H]; [subst |]);
  try (apply elem_of_nil in H; contradiction).

(** Unfold the handler bodies, with the header names in the open. *)
Ltac run_cors :=
  unfold cors.ServeHTTP;
  change cors.Origin with "Origin";
  change cors.AccessControlRequestMethod with "Access-Control-Request-Method";
  change cors.AccessControlAllowOrigin with "Access-Control-Allow-Origin";
  change cors.AccessControlAllowMethods with "Access-Control-Allow-Methods".

Ltac run_handler :=
  unfold handler.ServeHTTP, handler.handlePreflight, handler.handleRequest,
    handler.handleCommon;
  change handler.optionsMethod with "OPTIONS";
  change handler.originHeader with "Origin";
  change handler.requestMethodHeader with "Access-Control-Request-Method";
  change handler.requestHeadersHeader with "Access-Control-Request-Headers";
  cbv zeta.

(** One case per outcome of the checks. *)
Ltac split_checks :=
  repeat match goal with
    | |- context [if negb ?b then _ else _] =>
        let E := fresh "E" in destruct b eqn:E; cbn [negb]
    end.

(** The header map after the writes of a handler, key by key. *)
Ltac read_header :=
  cbn [seq w_Header_Set w_Header_Add w_WriteHeader log_Println next_ServeHTTP
         Hdr fresh cors.requestDenied handler.requestDenied
         handler.buildResponse handler.prepResponse];
  unfold Set_, Add;
  rewrite ?(lookup_insert_ne (M:=gmap string)) by done.

(** * Properties *)

(** ** Go values and headers *)

Lemma notNil_Slice {A} (s : slice A) : notNil s = true <-> exists l, s = Slice l.
Proof.
  destruct s as [|l]; simpl; split; try discriminate; eauto.
  intros [l' Hl]; discriminate.
Qed.

Lemma index_Slice (P : smap) (o : string) (l : list string) :
  index P o = Slice l <-> P !! o = Some (Slice l).
Proof.
  unfold index. destruct (P !! o) as [[|l']|]; simpl; split; congruence.
Qed.

Lemma index_notNil (P : smap) (o : string) :
  notNil (index P o) = true <-> exists l, P !! o = Some (Slice l).
Proof.
  rewrite notNil_Slice. by setoid_rewrite index_Slice.
Qed.

(** [Get] gives the empty string for a header that is absent, has no value
    or has the empty string as its first value, and only then. *)
Lemma Get_empty_iff (h : Header) (key : string) :
  Get h key = "" <->
  h !! key = None \/ h !! key = Some [] \/ exists l, h !! key = Some ("" :: l).
Proof.
  unfold Get. destruct (h !! key) as [[|v l]|]; split; auto.
  - intros ->. eauto.
  - intros [H|[H|[l' H]]]; congruence.
Qed.

(** [Split] always gives at least one field, and joining the fields with
    the separator gives the string back. *)
Lemma Split_not_nil (s : string) (sep : ascii) : Split s sep <> [].
Proof.
  destruct s as [|c s]; cbn [Split]; [discriminate |].
  destruct (Ascii.eqb c sep); [discriminate |].
  destruct (Split s sep); discriminate.
Qed.

Lemma concat_cons_String (sep : string) (c : ascii) (x : string) (xs : list string) :
  String.concat sep (String c x :: xs) = String c (String.concat sep (x :: xs)).
Proof. destruct xs; reflexivity. Qed.

Lemma Join_Split (s : string) (sep : ascii) :
  Join (Split s sep) (String sep "") = s.
Proof.
  unfold Join. induction s as [|c s IH]; [reflexivity |]. cbn [Split].
  pose proof (Split_not_nil s sep) as Hne.
  destruct (Ascii.eqb_spec c sep) as [->|Hc];
    destruct (Split s sep) as [|x xs]; try contradiction.
  - cbn [String.concat]. cbn [String.concat] in IH. by rewrite IH.
  - rewrite concat_cons_String. by rewrite IH.
Qed.

Lemma probedMethod_Get (r : Request) :
  probedMethod r =
    if String.eqb (Get (ReqHeader r) "Access-Control-Request-Method") ""
    then Method r
    else Get (ReqHeader r) "Access-Control-Request-Method".
Proof.
  unfold probedMethod, Get.
  destruct (ReqHeader r !! "Access-Control-Request-Method") as [[|v l]|];
    try reflexivity.
  destruct (String.eqb_spec v ""); case_decide; congruence.
Qed.

Lemma signalsNullOrigin_elem (t : list Effect) :
  signalsNullOrigin t -> HeaderSet "Access-Control-Allow-Origin" "null" ∈ t.
Proof.
  intros (t1 & t2 & t3 & ->). apply elem_of_app. right. left.
Qed.

(** ** The policy store of cors.go *)

Lemma checkMethod_range_spec (m : string) (l : list string) :
  cors.checkMethod_range m l = true <-> m ∈ l \/ "*" ∈ l.
Proof.
  induction l as [|a l IH]; simpl.
  - split; [discriminate | intros [H|H]; inversion H].
  - destruct (String.eqb_spec a m) as [->|Hm]; simpl.
    { split; [left; left | done]. }
    destruct (String.eqb_spec a "*") as [->|Hs]; simpl.
    { split; [right; left | done]. }
    rewrite IH, !elem_of_cons. intuition congruence.
Qed.

(** The exact entry is taken when it is not nil, the wildcard entry when the
    exact one is nil, and nothing otherwise. *)
Lemma getHostAndMethods_cases (P : smap) (o : string) :
  (notNil (index P o) = true /\
     cors.getHostAndMethods P o = (true, index P o))
  \/ (index P o = Nil /\ notNil (index P "*") = true /\
     cors.getHostAndMethods P o = (true, index P "*"))
  \/ (index P o = Nil /\ index P "*" = Nil /\
     cors.getHostAndMethods P o = (false, Slice [])).
Proof.
  unfold cors.getHostAndMethods.
  destruct (index P o) as [|l] eqn:Eo; simpl.
  - destruct (index P "*") as [|l'] eqn:Ew; simpl; eauto 10.
  - left; done.
Qed.

(** An exact entry that is not nil takes precedence over the wildcard. *)
Lemma getHostAndMethods_exact_first (P : smap) (o : string) (l : list string) :
  P !! o = Some (Slice l) -> cors.getHostAndMethods P o = (true, Slice l).
Proof.
  intros H. apply index_Slice in H. unfold cors.getHostAndMethods.
  rewrite H. reflexivity.
Qed.

Lemma validateOrigins_range_spec (keys : list string) :
  cors.validateOrigins_range keys =
    if bool_decide ("" ∈ keys)
    then (false, Some "must supply at least one origin or '*'")
    else (true, None).
Proof.
  induction keys as [|k keys IH]; cbn [cors.validateOrigins_range].
  - rewrite bool_decide_eq_false_2; [done | by intros H; inversion H].
  - destruct (String.eqb_spec k "") as [->|Hk].
    + rewrite bool_decide_eq_true_2; [done | left].
    + rewrite IH. apply (f_equal (fun b : bool => if b then _ else _)).
      apply bool_decide_ext. rewrite elem_of_cons. intuition congruence.
Qed.

Lemma elem_of_keys (P : smap) (o : string) :
  o ∈ (map_to_list P).*1 <-> is_Some (P !! o).
Proof.
  rewrite list_elem_of_fmap. split.
  - intros [[k v] [-> H]]. apply elem_of_map_to_list in H. eauto.
  - intros [v H]. exists (o, v). split; [done | by apply elem_of_map_to_list].
Qed.

(** The verdict of [validateOrigins] does not depend on the order in which
    the keys of the map are visited. *)
Lemma validateOrigins_any_order (P : smap) (keys : list string) :
  keys ≡ₚ (map_to_list P).*1 ->
  cors.validateOrigins_in keys P = cors.validateOrigins P.
Proof.
  intros Hp. unfold cors.validateOrigins, cors.validateOrigins_in.
  destruct (len P =? 0)%nat; [done |].
  rewrite !validateOrigins_range_spec.
  apply (f_equal (fun b : bool => if b then _ else _)).
  apply bool_decide_ext. by rewrite Hp.
Qed.

Lemma New_spec (P : smap) :
  cors.New P =
    if bool_decide (P = ∅ \/ is_Some (P !! ""))
    then inl "must supply at least one origin or '*'"
    else inr {| cors.AllowedOrigins := P |}.
Proof.
  unfold cors.New, cors.validateOrigins, cors.validateOrigins_in, len.
  destruct (Nat.eqb_spec (size P) 0) as [Hz|Hz].
  - apply map_size_empty_iff in Hz.
    rewrite bool_decide_eq_true_2; [done | by left].
  - rewrite validateOrigins_range_spec.
    destruct (decide ("" ∈ (map_to_list P).*1)) as [Hin|Hin].
    + rewrite bool_decide_eq_true_2 by done.
      rewrite bool_decide_eq_true_2; [done |].
      right. by apply elem_of_keys.
    + rewrite bool_decide_eq_false_2 by done.
      rewrite bool_decide_eq_false_2; [done |].
      intros [->|Hk]; [by rewrite map_size_empty in Hz |].
      by apply Hin, elem_of_keys.
Qed.

Lemma contains_spec (l : list string) (x : string) :
  middleware.contains l x = true <-> x ∈ l.
Proof.
  unfold middleware.contains. rewrite existsb_exists. split.
  - intros (y & Hy & He). apply String.eqb_eq in He. subst y.
    by apply list_elem_of_In.
  - intros Hx. exists x. split; [by apply list_elem_of_In | apply String.eqb_refl].
Qed.

(** C4 (amended): the origin check of cors.go accepts an origin exactly when
    the policy binds the origin itself, or the wildcard key, to a method
    list that is not nil; a key bound to a nil list counts as absent.  The
    match is equality of strings: a policy with the single entry [k] accepts
    [o] only if [o] is [k] or [k] is the wildcard. *)
Theorem origin_check_iff_entry_not_nil :
  (forall (P : smap) (o : string),
     (cors.getHostAndMethods P o).1 = true <->
     (exists l, P !! o = Some (Slice l)) \/ (exists l, P !! "*" = Some (Slice l)))
  /\ (forall (k o : string) (l : list string),
     (cors.getHostAndMethods {[k := Slice l]} o).1 = true <-> o = k \/ k = "*").
Proof.
  assert (Hgen : forall (P : smap) (o : string),
     (cors.getHostAndMethods P o).1 = true <->
     (exists l, P !! o = Some (Slice l)) \/ (exists l, P !! "*" = Some (Slice l))).
  { intros P o. rewrite <- !index_notNil.
    destruct (getHostAndMethods_cases P o) as [[H1 ->]|[[H1 [H2 ->]]|[H1 [H2 ->]]]];
      simpl; rewrite ?H1, ?H2; simpl; intuition congruence. }
  split; [exact Hgen |].
  intros k o l. rewrite Hgen. split.
  - intros [[l' H]|[l' H]]; apply lookup_singleton_Some in H as [-> _]; auto.
  - intros [->| ->]; [left | right]; exists l; apply lookup_singleton_eq.
Qed.

(** C4, as stated, fails on a key that is bound to a nil list: the key is
    in the policy and the origin check rejects it. *)
Lemma origin_check_rejects_nil_entry :
  let P : smap := {["http://a.com" := Nil]} in
  ~ ((cors.getHostAndMethods P "http://a.com").1 = true <->
     is_Some (P !! "http://a.com") \/ is_Some (P !! "*")).
Proof.
  intros P [_ H].
  assert (Hkey : is_Some (P !! "http://a.com")) by (exists Nil; reflexivity).
  specialize (H (or_introl Hkey)). vm_compute in H. discriminate.
Qed.

Lemma origin_check_iff_entry_not_nil_witness :
  (cors.getHostAndMethods {["*" := Slice ["GET"]]} "http://anything.com").1 = true.
Proof.
  apply (proj2 origin_check_iff_entry_not_nil "*" "http://anything.com" ["GET"]).
  right; reflexivity.
Defined.

(** C5: the method check accepts a method exactly when the method list holds
    it literally or holds the wildcard token; so when the list found for an
    origin by the exact-then-wildcard lookup holds the wildcard token, every
    probed method is accepted. *)
Theorem method_check_literal_or_wildcard :
  forall (m : string) (ms : slice string),
    (cors.checkMethod m ms = true <-> m ∈ elems ms \/ "*" ∈ elems ms)
    /\ (forall (P : smap) (o : string),
          ms = (cors.getHostAndMethods P o).2 -> "*" ∈ elems ms ->
          forall m' : string, cors.checkMethod m' ms = true).
Proof.
  intros m ms. split.
  - apply checkMethod_range_spec.
  - intros P o _ Hw m'. apply checkMethod_range_spec. by right.
Qed.

Lemma method_check_literal_or_wildcard_witness :
  cors.checkMethod "DELETE"
    (cors.getHostAndMethods {["http://a.com" := Slice ["*"]]} "http://a.com").2
  = true.
Proof.
  refine (proj2 (method_check_literal_or_wildcard "GET" _)
            {["http://a.com" := Slice ["*"]]} "http://a.com" eq_refl _ "DELETE").
  vm_compute. left.
Defined.

(** C8: [New] fails exactly when the mapping is empty or has the empty
    string as a key; every other mapping, whatever its method tokens, gives
    a middleware that holds exactly that mapping. *)
Theorem New_fails_iff_empty_or_empty_key :
  forall P : smap,
    ((exists e, cors.New P = inl e) <-> P = ∅ \/ is_Some (P !! ""))
    /\ ((exists e, cors.New P = inl e)
        \/ cors.New P = inr {| cors.AllowedOrigins := P |}).
Proof.
  intros P. rewrite New_spec.
  destruct (decide (P = ∅ \/ is_Some (P !! ""))) as [H|H].
  - rewrite bool_decide_eq_true_2 by done. split; [|left; eauto].
    split; [done | eauto].
  - rewrite bool_decide_eq_false_2 by done. split; [|by right].
    split; [intros [e He]; discriminate | done].
Qed.

(** ** The paths of the two handlers *)

(** What a handler does depends on the header map it is given only through
    the writes it adds to it: the effects are the same on any response. *)
Lemma cors_ServeHTTP_trace (a : cors.CorsHandler) (r : Request) (w : Response) :
  trace (cors.ServeHTTP a r w) =
    (trace w ++ trace (cors.ServeHTTP a r (fresh (Hdr w))))%list.
Proof.
  run_cors.
  destruct (cors.getHostAndMethods _ _) as [[|] ms]; cbn [negb];
    [destruct (String.eqb (Method r) "OPTIONS"); split_checks |];
    cbn; rewrite <- ?app_assoc; reflexivity.
Qed.

Lemma handler_ServeHTTP_trace {M : Type} `{Q : handler.Queries M}
  `{T : handler.ErrorTexts} (hd : handler.Handler M) (r : Request) (w : Response) :
  trace (handler.ServeHTTP hd r w) =
    (trace w ++ trace (handler.ServeHTTP hd r (fresh (Hdr w))))%list.
Proof.
  run_handler.
  destruct (String.eqb (Method r) "OPTIONS"); split_checks;
    cbn; rewrite <- ?app_assoc; reflexivity.
Qed.

(** cors.go: a denial writes 403 and the request is not forwarded; a
    request that is not denied is forwarded once or, a preflight, answered. *)
Lemma cors_denied_not_forwarded (a : cors.CorsHandler) (r : Request) (h : Header) :
  let t := trace (cors.ServeHTTP a r (fresh h)) in
  (status t = Some StatusForbidden /\ forwards t = 0)
  \/ (status t = Some StatusOK /\ forwards t = 0 /\ Method r = "OPTIONS")
  \/ (status t = None /\ forwards t = 1 /\ Method r <> "OPTIONS").
Proof.
  run_cors.
  destruct (cors.getHostAndMethods _ _) as [[|] ms]; cbn [negb]; [|left; done].
  destruct (String.eqb_spec (Method r) "OPTIONS") as [Hm|Hm].
  - destruct (negb (String.eqb _ "")); [destruct (cors.checkMethod _ _) |];
      cbn [negb]; auto.
  - destruct (cors.checkMethod _ _); cbn [negb]; auto.
Qed.

(** cors.go on a request whose origin fails the origin check. *)
Lemma cors_bad_origin (a : cors.CorsHandler) (r : Request) (h : Header) :
  (cors.getHostAndMethods (cors.AllowedOrigins (cors.cfg a))
     (Get (ReqHeader r) "Origin")).1 = false ->
  cors.ServeHTTP a r (fresh h) =
    {| Hdr := <["Access-Control-Allow-Origin" := ["null"]]> h;
       trace := [HeaderSet "Access-Control-Allow-Origin" "null";
                 LogPrintln ["Request Blocked by CORS: Bad Host"];
                 WriteHeader StatusForbidden] |}.
Proof.
  run_cors.
  destruct (cors.getHostAndMethods _ _) as [[|] ms]; simpl; [discriminate|].
  reflexivity.
Qed.

(** A preflight request to cors.go is answered directly. *)
Lemma cors_preflight_answered (a : cors.CorsHandler) (r : Request) (h : Header) :
  Method r = "OPTIONS" ->
  answeredDirectly (trace (cors.ServeHTTP a r (fresh h))).
Proof.
  intros Hm. run_cors. unfold answeredDirectly.
  destruct (cors.getHostAndMethods _ _) as [[|] ms]; cbn [negb].
  - rewrite Hm. change (String.eqb "OPTIONS" "OPTIONS") with true. cbv iota.
    destruct (negb (String.eqb _ "")); [destruct (cors.checkMethod _ _) |];
      cbn [negb]; (split; [reflexivity |]); auto.
  - split; [reflexivity | left; reflexivity].
Qed.

Section Handler.

Context {M : Type} `{Q : handler.Queries M} `{T : handler.ErrorTexts}.

Implicit Types (hd : handler.Handler M) (r : Request) (h : Header).

(** Every path of [handler.ServeHTTP] ends with the call of the next
    handler, and with that call only. *)
Lemma handler_always_forwards hd r h :
  forwards (trace (handler.ServeHTTP hd r (fresh h))) = 1.
Proof.
  run_handler.
  destruct (String.eqb (Method r) "OPTIONS"); split_checks; reflexivity.
Qed.

(** handler.go on a request whose origin fails the origin check. *)
Lemma handler_bad_origin hd r h :
  handler.isOriginAllowed (handler.cfg hd) (Get (ReqHeader r) "Origin") = false ->
  handler.ServeHTTP hd r (fresh h) =
    {| Hdr := Add h "Vary" "Origin";
       trace := [HeaderAdd "Vary" "Origin";
                 LogPrintln [handler.errorRoot; ": "; handler.errorBadOrigin];
                 WriteHeader StatusForbidden;
                 NextServeHTTP] |}.
Proof.
  intros Ho. run_handler. rewrite Ho.
  destruct (String.eqb (Method r) "OPTIONS"); reflexivity.
Qed.

(** A preflight request that passes the three checks of handler.go gets the
    response headers and is handed to the next handler; no status is
    written. *)
Lemma handler_preflight_allowed hd r h :
  Method r = "OPTIONS" ->
  let origin := Get (ReqHeader r) "Origin" in
  let headers := Split (Get (ReqHeader r) "Access-Control-Request-Headers") "," in
  handler.isOriginAllowed (handler.cfg hd) origin = true ->
  handler.isMethodAllowed (handler.cfg hd) (probedMethod r) origin = true ->
  handler.areHeadersAllowed (handler.cfg hd) headers origin = true ->
  trace (handler.ServeHTTP hd r (fresh h)) =
    [HeaderAdd "Vary" "Origin";
     HeaderSet "Access-Control-Allow-Origin" origin;
     HeaderSet "Access-Control-Allow-Methods" (probedMethod r);
     HeaderSet "Access-Control-Allow-Headers" (Join headers ",");
     NextServeHTTP].
Proof.
  intros Hm origin headers Ho Hme Hh. subst origin headers.
  rewrite probedMethod_Get in Hme |- *. run_handler.
  rewrite Hm in Hme |- *.
  change (String.eqb "OPTIONS" "OPTIONS") with true. cbv iota.
  rewrite Ho, Hme, Hh. reflexivity.
Qed.

End Handler.

(** ** Preflight requests *)

(** C1 (amended): cors.go answers every OPTIONS request directly: it never
    calls the next handler; when the origin is accepted and the probed
    method is absent or passes the method check it writes status 200 as the
    last thing it does, and otherwise it writes status 403.  handler.go does
    not answer a preflight that passes its checks: it sets the three
    response headers, writes no status and hands the request to the next
    handler. *)
Theorem preflight_answered_or_handed_on :
  (forall (a : cors.CorsHandler) (r : Request) (h : Header),
     Method r = "OPTIONS" ->
     let found := cors.getHostAndMethods (cors.AllowedOrigins (cors.cfg a))
                    (Get (ReqHeader r) "Origin") in
     let asked := Get (ReqHeader r) "Access-Control-Request-Method" in
     let t := trace (cors.ServeHTTP a r (fresh h)) in
     answeredDirectly t
     /\ (found.1 = true ->
         asked = "" \/ cors.checkMethod asked found.2 = true ->
         forwards t = 0
         /\ status t = Some StatusOK
         /\ statusWrites t = 1
         /\ last t = Some (WriteHeader StatusOK))
     /\ (found.1 = false
         \/ (asked <> "" /\ cors.checkMethod asked found.2 = false) ->
         forwards t = 0
         /\ status t = Some StatusForbidden
         /\ statusWrites t = 1
         /\ last t = Some (WriteHeader StatusForbidden)))
  /\ (forall (M : Type) (Q : handler.Queries M) (T : handler.ErrorTexts)
        (hd : handler.Handler M) (r : Request) (h : Header),
     Method r = "OPTIONS" ->
     let origin := Get (ReqHeader r) "Origin" in
     let headers := Split (Get (ReqHeader r) "Access-Control-Request-Headers") "," in
     handler.isOriginAllowed (handler.cfg hd) origin = true ->
     handler.isMethodAllowed (handler.cfg hd) (probedMethod r) origin = true ->
     handler.areHeadersAllowed (handler.cfg hd) headers origin = true ->
     let t := trace (handler.ServeHTTP hd r (fresh h)) in
     t = [HeaderAdd "Vary" "Origin";
          HeaderSet "Access-Control-Allow-Origin" origin;
          HeaderSet "Access-Control-Allow-Methods" (probedMethod r);
          HeaderSet "Access-Control-Allow-Headers" (Join headers ",");
          NextServeHTTP]
     /\ status t = None /\ forwards t = 1).
Proof.
  split.
  - intros a r h Hm found asked t.
    split; [apply cors_preflight_answered; exact Hm |].
    subst t. run_cors. fold asked found. destruct found as [ok ms].
    cbn [fst snd]. split.
    + intros -> Hok. cbn [negb]. rewrite Hm.
      change (String.eqb "OPTIONS" "OPTIONS") with true. cbv iota.
      destruct (String.eqb_spec asked "") as [Ha|Ha]; cbn [negb].
      * repeat split.
      * destruct Hok as [Hok|Hok]; [contradiction |]. rewrite Hok.
        repeat split.
    + intros [-> | [Ha Hc]]; cbn [negb]; [repeat split |].
      destruct ok; cbn [negb]; [|repeat split].
      rewrite Hm. change (String.eqb "OPTIONS" "OPTIONS") with true. cbv iota.
      apply String.eqb_neq in Ha. rewrite Ha, Hc. repeat split.
  - intros M Q T hd r h Hm origin headers Ho Hme Hh t.
    pose proof (handler_preflight_allowed hd r h Hm Ho Hme Hh) as Ht.
    fold t in Ht. split; [exact Ht |]. rewrite Ht. split; reflexivity.
Qed.

(** C1, as stated, fails on handler.go: an allowed preflight is handed to
    the next handler and no status 200 is written. *)
Lemma handler_preflight_not_answered :
  Method preflightA = "OPTIONS"
  /\ ~ answeredDirectly (trace (handler.ServeHTTP policyH preflightA (fresh ∅))).
Proof.
  split; [reflexivity |].
  intros [Hf _]. vm_compute in Hf. discriminate.
Qed.

Lemma preflight_answered_or_handed_on_witness :
  (let t := trace (cors.ServeHTTP policyA preflightA (fresh ∅)) in
   forwards t = 0 /\ status t = Some StatusOK /\ statusWrites t = 1
   /\ last t = Some (WriteHeader StatusOK))
  /\ (let t := trace (cors.ServeHTTP policyA preflightPost (fresh ∅)) in
      forwards t = 0 /\ status t = Some StatusForbidden /\ statusWrites t = 1
      /\ last t = Some (WriteHeader StatusForbidden))
  /\ (let t := trace (handler.ServeHTTP policyH preflightA (fresh ∅)) in
      status t = None /\ forwards t = 1).
Proof.
  split; [|split].
  - apply (proj1 preflight_answered_or_handed_on policyA preflightA ∅ eq_refl).
    + reflexivity.
    + right. vm_compute. reflexivity.
  - apply (proj1 preflight_answered_or_handed_on policyA preflightPost ∅ eq_refl).
    right. split; [discriminate | vm_compute; reflexivity].
  - apply (proj2 preflight_answered_or_handed_on _ _ _ policyH preflightA ∅ eq_refl);
      vm_compute; reflexivity.
Defined.

(** ** Denial *)

(** C2: handler.go at a request from an origin that the policy does not
    list: the origin check fails, status 403 is written, and the request is
    handed to the next handler all the same. *)
Theorem handler_forwards_denied_request :
  forall T : handler.ErrorTexts,
    let t := trace (handler.ServeHTTP policyH deniedA (fresh ∅)) in
    handler.isOriginAllowed (handler.cfg policyH)
      (Get (ReqHeader deniedA) "Origin") = false
    /\ t = [HeaderAdd "Vary" "Origin";
            LogPrintln [handler.errorRoot; ": "; handler.errorBadOrigin];
            WriteHeader StatusForbidden;
            NextServeHTTP]
    /\ status t = Some StatusForbidden
    /\ forwards t = 1.
Proof.
  intros T t.
  assert (Ho : handler.isOriginAllowed (handler.cfg policyH)
                 (Get (ReqHeader deniedA) "Origin") = false)
    by (vm_compute; reflexivity).
  split; [exact Ho |]. subst t.
  rewrite (handler_bad_origin policyH deniedA ∅ Ho). repeat split.
Qed.

(** C3 (amended): on a request whose origin fails the origin check, cors.go
    sets the allow-origin header to the string null, then logs and writes
    status 403.  handler.go writes status 403 and does not touch the
    allow-origin header. *)
Theorem origin_denial_header :
  (forall (a : cors.CorsHandler) (r : Request) (h : Header),
     (cors.getHostAndMethods (cors.AllowedOrigins (cors.cfg a))
        (Get (ReqHeader r) "Origin")).1 = false ->
     let w := cors.ServeHTTP a r (fresh h) in
     trace w = [HeaderSet "Access-Control-Allow-Origin" "null";
                LogPrintln ["Request Blocked by CORS: Bad Host"];
                WriteHeader StatusForbidden]
     /\ signalsNullOrigin (trace w)
     /\ Hdr w !! "Access-Control-Allow-Origin" = Some ["null"])
  /\ (forall (M : Type) (Q : handler.Queries M) (T : handler.ErrorTexts)
        (hd : handler.Handler M) (r : Request) (h : Header),
     handler.isOriginAllowed (handler.cfg hd) (Get (ReqHeader r) "Origin") = false ->
     let w := handler.ServeHTTP hd r (fresh h) in
     status (trace w) = Some StatusForbidden
     /\ (forall e, e ∈ trace w -> ~ writesHeader "Access-Control-Allow-Origin" e)
     /\ Hdr w !! "Access-Control-Allow-Origin" = h !! "Access-Control-Allow-Origin").
Proof.
  split.
  - intros a r h Ho w. subst w. rewrite (cors_bad_origin a r h Ho). cbn [trace Hdr].
    split; [reflexivity |]. split.
    + exists [], [LogPrintln ["Request Blocked by CORS: Bad Host"]], []. reflexivity.
    + apply lookup_insert_eq.
  - intros M Q T hd r h Ho w. subst w. rewrite (handler_bad_origin hd r h Ho).
    cbn [trace Hdr]. split; [reflexivity |]. split.
    + intros e He [v [Hv|Hv]]; elem_cases He; discriminate.
    + unfold Add. by rewrite lookup_insert_ne.
Qed.

(** C3, as stated, fails on handler.go: the origin is refused and the
    allow-origin header is never set to null. *)
Lemma handler_origin_denial_sets_no_null :
  let w := handler.ServeHTTP policyH deniedA (fresh ∅) in
  handler.isOriginAllowed (handler.cfg policyH)
    (Get (ReqHeader deniedA) "Origin") = false
  /\ ~ signalsNullOrigin (trace w)
  /\ Hdr w !! "Access-Control-Allow-Origin" = None.
Proof.
  split; [vm_compute; reflexivity |]. split.
  - intros Hs. apply signalsNullOrigin_elem in Hs.
    vm_compute in Hs. elem_cases Hs; discriminate.
  - vm_compute. reflexivity.
Qed.

Lemma origin_denial_header_witness :
  signalsNullOrigin (trace (cors.ServeHTTP policyA deniedA (fresh ∅))).
Proof.
  apply (proj1 origin_denial_header policyA deniedA ∅). vm_compute. reflexivity.
Defined.

(** ** The response headers *)

(** C6 (amended): for every request that is not denied, the allow-origin
    header is set to the value of the Origin header of the request, whichever
    policy entry matched; it is the wildcard token only when the Origin
    header of the request is itself the wildcard token, so never when the
    wildcard entry matched as the fallback. *)
Theorem allowed_origin_is_echoed :
  (forall (a : cors.CorsHandler) (r : Request) (h : Header),
     let origin := Get (ReqHeader r) "Origin" in
     let w := cors.ServeHTTP a r (fresh h) in
     status (trace w) <> Some StatusForbidden ->
     Hdr w !! "Access-Control-Allow-Origin" = Some [origin]
     /\ (Hdr w !! "Access-Control-Allow-Origin" = Some ["*"] <-> origin = "*")
     /\ (index (cors.AllowedOrigins (cors.cfg a)) origin = Nil ->
         echoesOriginNotWildcard r w))
  /\ (forall (M : Type) (Q : handler.Queries M) (T : handler.ErrorTexts)
        (hd : handler.Handler M) (r : Request) (h : Header),
     let origin := Get (ReqHeader r) "Origin" in
     let w := handler.ServeHTTP hd r (fresh h) in
     status (trace w) <> Some StatusForbidden ->
     Hdr w !! "Access-Control-Allow-Origin" = Some [origin]
     /\ (Hdr w !! "Access-Control-Allow-Origin" = Some ["*"] <-> origin = "*")).
Proof.
  split.
  - intros a r h origin w Hs.
    assert (Hecho : Hdr w !! "Access-Control-Allow-Origin" = Some [origin]).
    { subst w. revert Hs. run_cors. fold origin.
      destruct (cors.getHostAndMethods _ _) as [[|] ms]; cbn [negb].
      - destruct (String.eqb (Method r) "OPTIONS"); split_checks;
          intros Hs; try (exfalso; apply Hs; reflexivity);
          read_header; apply lookup_insert_eq.
      - intros Hs. exfalso. apply Hs. reflexivity. }
    split; [exact Hecho |]. split.
    + rewrite Hecho. split; congruence.
    + intros Hnil. split; [exact Hecho |]. rewrite Hecho. intros Heq.
      assert (Hw : origin = "*") by congruence.
      subst w. revert Hs. run_cors. fold origin. unfold cors.getHostAndMethods.
      rewrite Hnil. rewrite <- Hw, Hnil. cbn. intros Hs. apply Hs. reflexivity.
  - intros M Q T hd r h origin w Hs.
    assert (Hecho : Hdr w !! "Access-Control-Allow-Origin" = Some [origin]).
    { subst w. revert Hs. run_handler. fold origin.
      destruct (String.eqb (Method r) "OPTIONS"); split_checks;
        intros Hs; try (exfalso; apply Hs; reflexivity);
        read_header; apply lookup_insert_eq. }
    split; [exact Hecho |]. rewrite Hecho. split; congruence.
Qed.

(** C6, as stated, fails on a request whose Origin header is the wildcard
    token: the request is allowed and the token is what is echoed. *)
Lemma wildcard_origin_is_echoed :
  let w := cors.ServeHTTP wildcardPolicy wildcardOrigin (fresh ∅) in
  status (trace w) <> Some StatusForbidden
  /\ ~ echoesOriginNotWildcard wildcardOrigin w.
Proof.
  split.
  - vm_compute. discriminate.
  - intros [_ Hne]. apply Hne. vm_compute. reflexivity.
Qed.

Lemma allowed_origin_is_echoed_witness :
  echoesOriginNotWildcard anyOrigin
    (cors.ServeHTTP wildcardPolicy anyOrigin (fresh ∅)).
Proof.
  apply (proj1 allowed_origin_is_echoed wildcardPolicy anyOrigin ∅).
  - vm_compute. discriminate.
  - vm_compute. reflexivity.
Defined.

(** ** The method probed by a preflight *)

(** C7 (amended): on a preflight whose origin is allowed, handler.go checks
    the value of the Access-Control-Request-Method header when it is there
    and not empty, and the method of the request otherwise.  cors.go checks
    the value of the header when it is there and not empty; when the header
    is absent or empty it checks no method and answers 200.  Neither fails
    on a preflight without the header. *)
Theorem preflight_probed_method :
  (forall (M : Type) (Q : handler.Queries M) (T : handler.ErrorTexts)
        (hd : handler.Handler M) (r : Request) (h : Header),
     Method r = "OPTIONS" ->
     let origin := Get (ReqHeader r) "Origin" in
     let headers := Split (Get (ReqHeader r) "Access-Control-Request-Headers") "," in
     let w := handler.ServeHTTP hd r (fresh h) in
     handler.isOriginAllowed (handler.cfg hd) origin = true ->
     (handler.isMethodAllowed (handler.cfg hd) (probedMethod r) origin = false ->
        status (trace w) = Some StatusForbidden
        /\ LogPrintln [handler.errorRoot; ": "; handler.errorBadMethod] ∈ trace w)
     /\ (handler.isMethodAllowed (handler.cfg hd) (probedMethod r) origin = true ->
         handler.areHeadersAllowed (handler.cfg hd) headers origin = true ->
         status (trace w) = None
         /\ Hdr w !! "Access-Control-Allow-Methods" = Some [probedMethod r]))
  /\ (forall (a : cors.CorsHandler) (r : Request) (h : Header),
     Method r = "OPTIONS" ->
     let found := cors.getHostAndMethods (cors.AllowedOrigins (cors.cfg a))
                    (Get (ReqHeader r) "Origin") in
     let asked := Get (ReqHeader r) "Access-Control-Request-Method" in
     let t := trace (cors.ServeHTTP a r (fresh h)) in
     found.1 = true ->
     (asked <> "" ->
        (status t = Some StatusForbidden <-> cors.checkMethod asked found.2 = false)
        /\ (status t = Some StatusOK <-> cors.checkMethod asked found.2 = true))
     /\ (asked = "" -> status t = Some StatusOK)).
Proof.
  split.
  - intros M Q T hd r h Hm origin headers w Ho. subst w origin headers.
    rewrite probedMethod_Get. run_handler. rewrite Hm.
    change (String.eqb "OPTIONS" "OPTIONS") with true. cbv iota.
    rewrite Ho. cbn [negb]. split.
    + intros ->. cbn [negb]. split; [reflexivity |]. right; left.
    + intros -> ->. cbn [negb]. split; [reflexivity |].
      read_header. apply lookup_insert_eq.
  - intros a r h Hm found asked t Hf. subst t. run_cors. fold asked found.
    destruct found as [ok ms]. simpl in Hf. subst ok. cbn [negb fst snd].
    rewrite Hm. change (String.eqb "OPTIONS" "OPTIONS") with true. cbv iota.
    split.
    + intros Ha. apply String.eqb_neq in Ha. rewrite Ha. cbn [negb].
      destruct (cors.checkMethod asked ms); cbn [negb]; split; split;
        (reflexivity || discriminate).
    + intros Ha. apply String.eqb_eq in Ha. rewrite Ha. reflexivity.
Qed.

(** C7, as stated, fails on cors.go: a preflight without the header is
    answered 200 although the method of the request itself, OPTIONS, is not
    in the method list of the origin. *)
Lemma cors_bare_preflight_not_checked :
  Method barePreflight = "OPTIONS"
  /\ probedMethod barePreflight = "OPTIONS"
  /\ ~ checksProbedMethod policyA barePreflight ∅.
Proof.
  split; [reflexivity |]. split; [reflexivity |].
  intros [_ H].
  assert (Hs : status (trace (cors.ServeHTTP policyA barePreflight (fresh ∅)))
               = Some StatusForbidden) by (apply H; vm_compute; reflexivity).
  vm_compute in Hs. discriminate.
Qed.

Lemma preflight_probed_method_witness :
  status (trace (cors.ServeHTTP policyA preflightPost (fresh ∅)))
  = Some StatusForbidden.
Proof.
  apply (proj2 preflight_probed_method policyA preflightPost ∅);
    vm_compute; (reflexivity || discriminate).
Defined.

(** ** The Vary header *)

(** C9 (amended): handler.go adds Vary: Origin to the response of every
    request before anything else, whatever the decision.  cors.go never
    writes a Vary header. *)
Theorem vary_origin :
  (forall (M : Type) (Q : handler.Queries M) (T : handler.ErrorTexts)
        (hd : handler.Handler M) (r : Request) (h : Header),
     let w := handler.ServeHTTP hd r (fresh h) in
     variesOnOriginFirst (trace w)
     /\ Hdr w !! "Vary" = Some (default [] (h !! "Vary") ++ ["Origin"])%list)
  /\ (forall (a : cors.CorsHandler) (r : Request) (h : Header),
     let w := cors.ServeHTTP a r (fresh h) in
     (forall e, e ∈ trace w -> ~ writesHeader "Vary" e)
     /\ Hdr w !! "Vary" = h !! "Vary").
Proof.
  split.
  - intros M Q T hd r h w. subst w. run_handler.
    destruct (String.eqb (Method r) "OPTIONS"); split_checks;
      (split; [reflexivity |]); read_header; apply lookup_insert_eq.
  - intros a r h w. subst w. run_cors.
    destruct (cors.getHostAndMethods _ _) as [[|] ms]; cbn [negb];
      [destruct (String.eqb (Method r) "OPTIONS"); split_checks |];
      (split; [intros e He [v [Hv|Hv]]; subst e;
               cbn [seq w_Header_Set w_WriteHeader log_Println next_ServeHTTP
                      trace cors.requestDenied fresh app] in He;
               elem_cases He; discriminate |]);
      read_header; reflexivity.
Qed.

(** C9, as stated, fails on cors.go: the response of an allowed request
    carries no Vary header. *)
Lemma cors_sets_no_vary :
  let w := cors.ServeHTTP wildcardPolicy anyOrigin (fresh ∅) in
  ~ variesOnOriginFirst (trace w) /\ Hdr w !! "Vary" = None.
Proof.
  split.
  - intros H. vm_compute in H. discriminate.
  - vm_compute. reflexivity.
Qed.

(** ** The requested headers *)

(** C10: when the Access-Control-Request-Headers header is absent or empty,
    the list that handler.go hands to the header check is the one-element
    list of the empty string, not the empty list: the request is denied or
    let through by what the check says of that list, and what is echoed in
    Access-Control-Allow-Headers is its join, the empty string.  With the
    header check of the specification, the list passes only if the allowed
    header names of the origin hold the empty string or the wildcard. *)
Theorem empty_requested_headers :
  forall (M : Type) (Q : handler.Queries M) (T : handler.ErrorTexts)
    (hd : handler.Handler M) (r : Request) (h : Header) (method : string),
    Get (ReqHeader r) "Access-Control-Request-Headers" = "" ->
    let origin := Get (ReqHeader r) "Origin" in
    let headers := Split (Get (ReqHeader r) "Access-Control-Request-Headers") "," in
    let w := handler.handleCommon hd r method (fresh h) in
    (headers = [""] /\ headers <> [])
    /\ (handler.isOriginAllowed (handler.cfg hd) origin = true ->
        handler.isMethodAllowed (handler.cfg hd) method origin = true ->
        (handler.areHeadersAllowed (handler.cfg hd) [""] origin = false ->
           status (trace w) = Some StatusForbidden
           /\ LogPrintln [handler.errorRoot; ": "; handler.errorBadHeader] ∈ trace w)
        /\ (handler.areHeadersAllowed (handler.cfg hd) [""] origin = true ->
            status (trace w) = None
            /\ HeaderSet "Access-Control-Allow-Headers" (Join [""] ",") ∈ trace w
            /\ Hdr w !! "Access-Control-Allow-Headers" = Some [""]))
    /\ (forall (c : middleware.Middleware) (o : string),
        middleware.areHeadersAllowed c [""] o = true <->
        "" ∈ middleware.allowedHeaders c o \/ "*" ∈ middleware.allowedHeaders c o).
Proof.
  intros M Q T hd r h method Habs origin headers w.
  assert (Hh : headers = [""]) by (subst headers; rewrite Habs; reflexivity).
  split; [split; [exact Hh | rewrite Hh; discriminate] |]. split.
  - intros Ho Hm. subst w. unfold handler.handleCommon.
    change handler.originHeader with "Origin".
    change handler.requestHeadersHeader with "Access-Control-Request-Headers".
    cbv zeta. fold origin headers. rewrite Ho, Hm, Hh. cbn [negb]. split.
    + intros ->. cbn [negb]. split; [reflexivity | left].
    + intros ->. cbn [negb]. split; [reflexivity |]. split.
      * right; right; left.
      * apply lookup_insert_eq.
  - intros c o. unfold middleware.areHeadersAllowed. cbn [forallb].
    rewrite andb_true_r, orb_true_iff, !contains_spec. reflexivity.
Qed.

Lemma empty_requested_headers_witness :
  Hdr (handler.handleCommon policyH plainGet "GET" (fresh ∅))
    !! "Access-Control-Allow-Headers" = Some [""].
Proof.
  assert (Habs : Get (ReqHeader plainGet) "Access-Control-Request-Headers" = "")
    by (apply Get_empty_iff; left; reflexivity).
  pose proof (empty_requested_headers _ _ _ policyH plainGet ∅ "GET" Habs)
    as [_ [H _]].
  cbv zeta in H. destruct (H eq_refl eq_refl) as [_ H2].
  destruct (H2 eq_refl) as (_ & _ & H3). exact H3.
Defined.

(** * Further properties of the code *)

(** ** cors.go: lookup, decision and outcome *)

Lemma getHostAndMethods_effective (P : smap) (o : string) :
  cors.getHostAndMethods P o =
    match effectiveMethods P o with
    | Some l => (true, Slice l)
    | None => (false, Slice [])
    end.
Proof.
  unfold cors.getHostAndMethods, effectiveMethods, index.
  destruct (P !! o) as [[|l]|]; simpl; try reflexivity;
    destruct (P !! "*") as [[|l']|]; reflexivity.
Qed.

Lemma eqb_OPTIONS_false (r : Request) :
  Method r <> "OPTIONS" -> String.eqb (Method r) "OPTIONS" = false.
Proof. apply String.eqb_neq. Qed.

(** X1: cors.go hands a request that is not a preflight to the next handler
    exactly when the method list that counts for its origin holds the method
    of the request or the wildcard; it is then handed on once, with no
    status written, and otherwise not at all, with status 403. *)
Theorem cors_actual_forwarded_iff :
  forall (a : cors.CorsHandler) (r : Request) (h : Header),
    Method r <> "OPTIONS" ->
    let P := cors.AllowedOrigins (cors.cfg a) in
    let t := trace (cors.ServeHTTP a r (fresh h)) in
    (forwards t = 1 <->
       exists l, effectiveMethods P (Get (ReqHeader r) "Origin") = Some l
                 /\ (Method r ∈ l \/ "*" ∈ l))
    /\ (forwards t = 1 -> status t = None)
    /\ (forwards t <> 1 -> forwards t = 0 /\ status t = Some StatusForbidden).
Proof.
  intros a r h Hm P t. subst t. run_cors. fold P.
  rewrite getHostAndMethods_effective.
  destruct (effectiveMethods P _) as [l|]; cbn [negb].
  - rewrite (eqb_OPTIONS_false r Hm).
    destruct (cors.checkMethod (Method r) (Slice l)) eqn:Hc; cbn [negb].
    + apply checkMethod_range_spec in Hc. split; [|split]; try done.
      split; [eauto | reflexivity].
    + assert (Hn : ~ (Method r ∈ l \/ "*" ∈ l)).
      { intros Hin. apply checkMethod_range_spec in Hin.
        unfold cors.checkMethod in Hc. cbn [elems] in Hc. congruence. }
      split; [|split]; try done.
      split; [discriminate |]. intros (l' & Hl & Hin). congruence.
  - split; [|split]; try done.
    split; [discriminate |]. intros (l' & Hl & _). discriminate.
Qed.

Lemma cors_actual_forwarded_iff_witness :
  forwards (trace (cors.ServeHTTP policyA plainGet (fresh ∅))) = 1.
Proof.
  apply (cors_actual_forwarded_iff policyA plainGet ∅); [discriminate |].
  exists ["GET"]. split; [reflexivity | left; left].
Defined.

(** X2: cors.go gives every request exactly one outcome, as the last thing
    it does: either one status is written, 200 or 403, or the next handler
    is called once; never both and never neither. *)
Theorem cors_exactly_one_outcome :
  forall (a : cors.CorsHandler) (r : Request) (h : Header),
    let t := trace (cors.ServeHTTP a r (fresh h)) in
    statusWrites t + forwards t = 1
    /\ (last t = Some NextServeHTTP
        \/ last t = Some (WriteHeader StatusOK)
        \/ last t = Some (WriteHeader StatusForbidden)).
Proof.
  intros a r h t. subst t. run_cors.
  destruct (cors.getHostAndMethods _ _) as [[|] ms]; cbn [negb];
    [destruct (String.eqb (Method r) "OPTIONS"); split_checks |];
    (split; [reflexivity | auto]).
Qed.

(** X3: the wildcard entry is a fallback, not a merge: when the origin has
    an entry of its own that is not nil, that list alone is used, and a
    method that it does not hold is refused whatever the wildcard entry
    allows. *)
Theorem exact_entry_not_merged_with_wildcard :
  forall (P : smap) (o m : string) (l : list string),
    P !! o = Some (Slice l) ->
    m ∉ l -> "*" ∉ l ->
    cors.getHostAndMethods P o = (true, Slice l)
    /\ cors.checkMethod m (cors.getHostAndMethods P o).2 = false.
Proof.
  intros P o m l Hl Hm Hs.
  rewrite getHostAndMethods_effective. unfold effectiveMethods. rewrite Hl.
  split; [reflexivity |]. cbn [snd].
  destruct (cors.checkMethod m (Slice l)) eqn:Hc; [|reflexivity].
  apply checkMethod_range_spec in Hc. tauto.
Qed.

Lemma exact_entry_not_merged_with_wildcard_witness :
  cors.checkMethod "POST" (cors.getHostAndMethods mixedPolicy "http://a.com").2
  = false.
Proof.
  apply (exact_entry_not_merged_with_wildcard mixedPolicy "http://a.com" "POST" ["GET"]).
  - reflexivity.
  - apply not_elem_of_cons. split; [discriminate | apply not_elem_of_nil].
  - apply not_elem_of_cons. split; [discriminate | apply not_elem_of_nil].
Defined.

(** X4: on a preflight from an accepted origin cors.go sets
    Access-Control-Allow-Methods to the whole method list of the origin,
    joined by commas, and it does so before the method check: the header is
    there on a 403 as on a 200.  On any other request it leaves that header
    alone. *)
Theorem preflight_lists_allowed_methods :
  forall (a : cors.CorsHandler) (r : Request) (h : Header),
    let found := cors.getHostAndMethods (cors.AllowedOrigins (cors.cfg a))
                   (Get (ReqHeader r) "Origin") in
    let w := cors.ServeHTTP a r (fresh h) in
    (Method r = "OPTIONS" -> found.1 = true ->
       Hdr w !! "Access-Control-Allow-Methods" = Some [Join (elems found.2) ","]
       /\ (status (trace w) = Some StatusOK
           \/ status (trace w) = Some StatusForbidden))
    /\ (Method r <> "OPTIONS" ->
        Hdr w !! "Access-Control-Allow-Methods"
        = h !! "Access-Control-Allow-Methods").
Proof.
  intros a r h found w. subst w. run_cors. fold found.
  destruct found as [ok ms]. split.
  - intros Hm Hok. cbn [fst] in Hok. subst ok. cbn [negb snd].
    rewrite Hm. change (String.eqb "OPTIONS" "OPTIONS") with true. cbv iota.
    split_checks; (split; [read_header; apply lookup_insert_eq | auto]).
  - intros Hm. rewrite (eqb_OPTIONS_false r Hm).
    destruct ok; cbn [negb]; split_checks; read_header; reflexivity.
Qed.

(** X5: when cors.go accepts the origin and refuses the method, the 403
    response still carries Access-Control-Allow-Origin set to the origin of
    the request, and the reason logged is the bad method. *)
Theorem method_denial_keeps_origin_header :
  forall (a : cors.CorsHandler) (r : Request) (h : Header),
    let origin := Get (ReqHeader r) "Origin" in
    let w := cors.ServeHTTP a r (fresh h) in
    (cors.getHostAndMethods (cors.AllowedOrigins (cors.cfg a)) origin).1 = true ->
    status (trace w) = Some StatusForbidden ->
    Hdr w !! "Access-Control-Allow-Origin" = Some [origin]
    /\ LogPrintln ["Request Blocked by CORS: Bad Method"] ∈ trace w
    /\ LogPrintln ["Request Blocked by CORS: Bad Host"] ∉ trace w.
Proof.
  intros a r h origin w Hok. subst w. revert Hok. run_cors. fold origin.
  destruct (cors.getHostAndMethods _ _) as [ok ms]. cbn [fst]. intros ->.
  cbn [negb].
  destruct (String.eqb (Method r) "OPTIONS"); split_checks;
    intros Hs; try discriminate Hs;
    (split; [read_header; apply lookup_insert_eq |]);
    (split; [set_solver |]);
    intros Hn; cbn in Hn; elem_cases Hn; discriminate.
Qed.

Lemma method_denial_keeps_origin_header_witness :
  Hdr (cors.ServeHTTP policyA preflightPost (fresh ∅))
    !! "Access-Control-Allow-Origin" = Some ["http://a.com"].
Proof.
  apply (method_denial_keeps_origin_header policyA preflightPost ∅);
    vm_compute; reflexivity.
Defined.

(** ** cors.go: construction *)

Lemma New_inr (P : smap) (m : cors.CorsMiddleware) :
  cors.New P = inr m ->
  m = {| cors.AllowedOrigins := P |} /\ P <> ∅ /\ P !! "" = None.
Proof.
  rewrite New_spec. case_bool_decide as Hd; [discriminate |].
  intros [= <-]. split; [reflexivity |]. split.
  - intros ->. apply Hd. by left.
  - destruct (P !! "") eqn:E; [|reflexivity]. exfalso. apply Hd. right. eauto.
Qed.

(** X6: with a middleware that [New] accepted, a request that has no Origin
    header is judged by the wildcard entry alone: without a wildcard entry
    it is refused with status 403 and the allow-origin header null; with one,
    the wildcard list is the list used and the allow-origin header is set to
    the empty string. *)
Theorem validated_policy_without_origin_header :
  forall (P : smap) (m : cors.CorsMiddleware) (a : cors.CorsHandler)
    (r : Request) (h : Header),
    cors.New P = inr m ->
    cors.NewHandler m = inr a ->
    ReqHeader r !! "Origin" = None ->
    let w := cors.ServeHTTP a r (fresh h) in
    (index P "*" = Nil ->
       status (trace w) = Some StatusForbidden
       /\ forwards (trace w) = 0
       /\ Hdr w !! "Access-Control-Allow-Origin" = Some ["null"])
    /\ (forall l, P !! "*" = Some (Slice l) ->
        cors.getHostAndMethods (cors.AllowedOrigins (cors.cfg a)) "" = (true, Slice l)
        /\ Hdr w !! "Access-Control-Allow-Origin" = Some [""]).
Proof.
  intros P m a r h Hnew Hh Ho w.
  apply New_inr in Hnew as (-> & _ & Hk). injection Hh as <-. cbn [cors.cfg cors.AllowedOrigins].
  assert (Hget : Get (ReqHeader r) "Origin" = "") by (unfold Get; by rewrite Ho).
  assert (Hnil : index P "" = Nil) by (unfold index; by rewrite Hk).
  subst w. run_cors. cbn [cors.cfg cors.AllowedOrigins]. rewrite Hget.
  unfold cors.getHostAndMethods. rewrite Hnil. cbn [notNil]. split.
  - intros Hw. rewrite Hw. cbn [notNil negb]. split; [reflexivity |].
    split; [reflexivity |]. read_header. apply lookup_insert_eq.
  - intros l Hl. apply index_Slice in Hl. rewrite Hl. cbn [notNil negb].
    split; [reflexivity |].
    destruct (String.eqb (Method r) "OPTIONS"); split_checks;
      read_header; apply lookup_insert_eq.
Qed.

Lemma validated_policy_without_origin_header_witness :
  status (trace (cors.ServeHTTP policyA (mkRequest "GET" []) (fresh ∅)))
  = Some StatusForbidden.
Proof.
  apply (validated_policy_without_origin_header
           (cors.AllowedOrigins (cors.cfg policyA)) (cors.cfg policyA) policyA
           (mkRequest "GET" []) ∅); reflexivity.
Defined.

(** X7: [FromOther] gives back the middleware it is given or fails: it
    accepts exactly the middlewares whose mapping [New] accepts, so a
    middleware made by [New] passes through [FromOther] unchanged. *)
Theorem FromOther_roundtrip :
  forall (c : cors.CorsMiddleware),
    (forall m, cors.FromOther c = inr m -> m = c)
    /\ (forall P, cors.New P = inr c -> cors.FromOther c = inr c)
    /\ ((exists e, cors.FromOther c = inl e) <->
        cors.AllowedOrigins c = ∅ \/ is_Some (cors.AllowedOrigins c !! "")).
Proof.
  intros [P]. unfold cors.FromOther. cbn [cors.AllowedOrigins]. split; [|split].
  - intros m Hm. by apply New_inr in Hm as [-> _].
  - intros P' Hm. pose proof Hm as Hm'.
    apply New_inr in Hm' as [[= ->] _]. exact Hm.
  - rewrite New_spec. case_bool_decide as Hd.
    + split; [done | eauto].
    + split; [intros [e He]; discriminate | done].
Qed.

(** X8: [validateOrigins] gives the same verdict in whatever order the keys
    of the map are visited, and its two results agree: true with no error
    when the map is not empty and has no empty key, false with the error
    otherwise. *)
Theorem validateOrigins_verdict_any_order :
  forall (P : smap) (keys : list string),
    keys ≡ₚ (map_to_list P).*1 ->
    cors.validateOrigins_in keys P =
      if bool_decide (P = ∅ \/ is_Some (P !! ""))
      then (false, Some "must supply at least one origin or '*'")
      else (true, None).
Proof.
  intros P keys Hp. unfold cors.validateOrigins_in, len.
  destruct (Nat.eqb_spec (size P) 0) as [Hz|Hz].
  - apply map_size_empty_iff in Hz.
    rewrite bool_decide_eq_true_2; [done | by left].
  - rewrite validateOrigins_range_spec.
    apply (f_equal (fun b : bool => if b then _ else _)).
    apply bool_decide_ext. rewrite Hp, elem_of_keys. split; [by right |].
    intros [->|Hk]; [by rewrite map_size_empty in Hz | done].
Qed.

Lemma validateOrigins_verdict_any_order_witness :
  cors.validateOrigins_in ["*"; "http://a.com"] mixedPolicy = (true, None).
Proof.
  rewrite (validateOrigins_verdict_any_order mixedPolicy ["*"; "http://a.com"]).
  - reflexivity.
  - vm_compute. first [reflexivity | apply perm_swap].
Defined.

(** X9: [FromCli] without the corsFile flag reads and prints nothing and
    fails.  With the flag, the line File error is printed exactly when the
    file cannot be read, and that error is never returned: a middleware is
    returned exactly when the mapping left by the parser is not empty and has
    no empty key, holding that mapping, and any error returned is the one of
    the validation. *)
Theorem FromCli_outcome :
  forall (ReadFile : string -> string * bool) (Unmarshal : string -> smap)
    (corsFileName : string),
    let res := cors.FromCli ReadFile Unmarshal corsFileName in
    let parsed := Unmarshal (ReadFile corsFileName).1 in
    (corsFileName = "" ->
       res = ([], inl "must supply at least one origin or '*'"))
    /\ (res.1 = ["File error"] <->
        corsFileName <> "" /\ (ReadFile corsFileName).2 = true)
    /\ (res.1 = [] <->
        corsFileName = "" \/ (ReadFile corsFileName).2 = false)
    /\ (res.2 = inr {| cors.AllowedOrigins := parsed |} <->
        corsFileName <> "" /\ parsed <> ∅ /\ parsed !! "" = None)
    /\ (res.2 = inl "must supply at least one origin or '*'" <->
        corsFileName = "" \/ parsed = ∅ \/ is_Some (parsed !! ""))
    /\ (forall m, res.2 = inr m -> m = {| cors.AllowedOrigins := parsed |})
    /\ (forall e, res.2 = inl e -> e = "must supply at least one origin or '*'").
Proof.
  intros ReadFile Unmarshal f res parsed. subst res parsed. unfold cors.FromCli.
  destruct (String.eqb_spec f "") as [->|Hf]; cbn [negb].
  - cbn [fst snd]. rewrite New_spec.
    rewrite bool_decide_eq_true_2 by (by left).
    split; [reflexivity |]. split; [split; [discriminate | intros [? _]; done] |].
    split; [split; auto |].
    split; [split; [discriminate | intros [? _]; done] |].
    split; [split; auto |].
    split; [discriminate | congruence].
  - destruct (ReadFile f) as [yamlFile err]. cbn [fst snd]. rewrite New_spec.
    split; [done |].
    split; [destruct err; split; try done; intros [_ ?]; done |].
    split; [destruct err; split; try done; [intros [?|?]; done | auto] |].
    case_bool_decide as Hd.
    + split; [split; [discriminate | intros (_ & Hne & Hk)] |].
      { destruct Hd as [Hd|[v Hv]]; [done | congruence]. }
      split; [split; auto |].
      split; [discriminate | congruence].
    + split; [split; [intros _ | reflexivity] |].
      { split; [done |]. split.
        - intros He. apply Hd. by left.
        - destruct (Unmarshal yamlFile !! "") eqn:E; [|reflexivity].
          exfalso. apply Hd. right. eauto. }
      split; [split; [discriminate | intros [?|?]; done] |].
      split; [congruence | discriminate].
Qed.

Lemma FromCli_outcome_witness :
  cors.FromCli noFile noEntries "" = ([], inl "must supply at least one origin or '*'")
  /\ (cors.FromCli oneFile parseSample "cors.yml").1 = []
  /\ (cors.FromCli oneFile parseSample "cors.yml").2
     = inr {| cors.AllowedOrigins := mixedPolicy |}
  /\ (cors.FromCli oneFile parseSample "missing.yml").1 = ["File error"]
  /\ (cors.FromCli oneFile parseSample "missing.yml").2
     = inl "must supply at least one origin or '*'".
Proof.
  split; [apply (FromCli_outcome noFile noEntries ""); reflexivity |].
  pose proof (FromCli_outcome oneFile parseSample "cors.yml")
    as (_ & _ & Hq & Hok & _).
  pose proof (FromCli_outcome oneFile parseSample "missing.yml")
    as (_ & Hp & _ & _ & Hbad & _).
  cbv zeta in Hq, Hok, Hp, Hbad.
  split; [apply Hq; right; reflexivity |].
  split.
  - apply Hok. split; [discriminate |]. split; [|reflexivity].
    intros He. apply (f_equal (fun m : smap => m !! "*")) in He.
    vm_compute in He. discriminate He.
  - split; [apply Hp; split; [discriminate | reflexivity] |].
    apply Hbad. right; left. reflexivity.
Defined.

(** ** handler.go: decision and response *)

Section HandlerOutcome.

Context {M : Type} `{Q : handler.Queries M} `{T : handler.ErrorTexts}.

Implicit Types (hd : handler.Handler M) (r : Request) (h : Header).

(** The response of handler.go, by the verdict of the three checks. *)
Lemma handler_ServeHTTP_passes hd r h :
  passesChecks hd r = true ->
  handler.ServeHTTP hd r (fresh h) =
    (w_Header_Add "Vary" "Origin" ;;
     handler.buildResponse hd r (Get (ReqHeader r) "Origin") (checkedMethod r)
       (Split (Get (ReqHeader r) "Access-Control-Request-Headers") ",") ;;
     next_ServeHTTP r) (fresh h).
Proof.
  unfold passesChecks, checkedMethod. rewrite probedMethod_Get. run_handler.
  intros Hp. apply andb_prop in Hp as [Hp Hh]. apply andb_prop in Hp as [Ho Hm].
  destruct (String.eqb (Method r) "OPTIONS"); rewrite Ho, Hm, Hh; reflexivity.
Qed.

Lemma handler_ServeHTTP_fails hd r h :
  passesChecks hd r = false ->
  exists reason,
    handler.ServeHTTP hd r (fresh h) =
      (w_Header_Add "Vary" "Origin" ;; handler.requestDenied hd reason ;;
       next_ServeHTTP r) (fresh h).
Proof.
  unfold passesChecks, checkedMethod. rewrite probedMethod_Get. run_handler.
  destruct (String.eqb (Method r) "OPTIONS"); split_checks;
    try discriminate; intros _; eauto.
Qed.

End HandlerOutcome.

(** X10: handler.go writes a status exactly when one of its three checks
    fails, the status is 403 and it is written once; a request that fails a
    check gets none of the three Access-Control-Allow headers, and a request
    that passes them all gets no status and no log line. *)
Theorem handler_denies_or_sets_headers :
  forall (M : Type) (Q : handler.Queries M) (T : handler.ErrorTexts)
    (hd : handler.Handler M) (r : Request) (h : Header),
    let t := trace (handler.ServeHTTP hd r (fresh h)) in
    (status t = Some StatusForbidden <-> passesChecks hd r = false)
    /\ (status t = None <-> passesChecks hd r = true)
    /\ statusWrites t <= 1
    /\ (passesChecks hd r = false -> forall e, e ∈ t -> ~ writesAllowHeader e)
    /\ (passesChecks hd r = true -> forall e args, e ∈ t -> e <> LogPrintln args).
Proof.
  intros M Q T hd r h t. subst t.
  destruct (passesChecks hd r) eqn:Hp.
  - rewrite (handler_ServeHTTP_passes hd r h Hp). cbn.
    repeat split; try done; try lia.
    intros _ e args He. elem_cases He; discriminate.
  - destruct (handler_ServeHTTP_fails hd r h Hp) as [reason ->]. cbn.
    repeat split; try done; try lia.
    intros _ e He [Hw|[Hw|Hw]]; destruct Hw as [v [Hv|Hv]];
      elem_cases He; discriminate.
Qed.

(** X11: for a request that passes the three checks, handler.go answers
    with the origin of the request, the one method it checked, and the value
    of the Access-Control-Request-Headers header given back as it came:
    joining what was split restores the header. *)
Theorem handler_echoes_requested_headers :
  forall (M : Type) (Q : handler.Queries M) (T : handler.ErrorTexts)
    (hd : handler.Handler M) (r : Request) (h : Header),
    passesChecks hd r = true ->
    let w := handler.ServeHTTP hd r (fresh h) in
    Hdr w !! "Access-Control-Allow-Origin" = Some [Get (ReqHeader r) "Origin"]
    /\ Hdr w !! "Access-Control-Allow-Methods" = Some [checkedMethod r]
    /\ Hdr w !! "Access-Control-Allow-Headers"
       = Some [Get (ReqHeader r) "Access-Control-Request-Headers"].
Proof.
  intros M Q T hd r h Hp w. subst w.
  rewrite (handler_ServeHTTP_passes hd r h Hp).
  change handler.allowHeadersHeader with "Access-Control-Allow-Headers".
  repeat split; read_header; rewrite ?Join_Split; apply lookup_insert_eq.
Qed.

Lemma handler_echoes_requested_headers_witness :
  Hdr (handler.ServeHTTP policyH preflightHeaders (fresh ∅))
    !! "Access-Control-Allow-Headers" = Some ["X-A,X-B"].
Proof.
  apply (handler_echoes_requested_headers _ _ _ policyH preflightHeaders ∅).
  vm_compute. reflexivity.
Defined.

(** ** What the handlers read of a request *)




